(** * Tool invocation protocol of the agent tools

    A shallow embedding of the tool bodies of [api/agent/agents.py]
    ([gpt_image_generation], [gpt_image_edit], [sora_video_generation]) and of
    the [create_image] endpoint of [api/tools/image/__init__.py].

    A tool body is a Python coroutine that talks to three collaborators: the
    notifier ([notify]), the HTTP transport and the blob storage.  Every call
    to a collaborator is recorded, in program order, in a trace; what the
    provider answers is an input of the model.  Request headers and request
    bodies do not influence the control flow and are left out, as is
    [print]. *)

From Stdlib Require Import String List ZArith Bool Lia Ascii PeanoNat.
From Stdlib Require Import DecimalString DecimalNat.
Import ListNotations.
Local Open Scope string_scope.
Local Open Scope list_scope.
Local Set Warnings "-register-all".

(** ** Python values *)

(** A parsed JSON document, as [response.json()] returns it.  Numbers are
    integers; a JSON object is the association list of its members. *)
Inductive json : Type :=
| JNull
| JBool (b : bool)
| JNum (n : Z)
| JStr (s : string)
| JArr (items : list json)
| JObj (fields : list (string * json)).

Definition dict : Type := list (string * json).

(** [d.get(k)]: the first binding of [k]. *)
Fixpoint dict_lookup (k : string) (d : dict) : option json :=
  match d with
  | [] => None
  | (k', v) :: d' => if String.eqb k k' then Some v else dict_lookup k d'
  end.

(** [d.get(k, default)] *)
Definition dict_get (d : dict) (k : string) (default : json) : json :=
  match dict_lookup k d with
  | Some v => v
  | None => default
  end.

(** [k in d] *)
Definition contains (k : string) (d : dict) : bool :=
  match dict_lookup k d with
  | Some _ => true
  | None => false
  end.

(** Truth value of a Python object: [None], [False], [0], the empty string,
    the empty list and the empty dict are false. *)
Definition truthy (v : json) : bool :=
  match v with
  | JNull => false
  | JBool b => b
  | JNum n => negb (Z.eqb n 0)
  | JStr s => negb (String.eqb s EmptyString)
  | JArr items => match items with [] => false | _ => true end
  | JObj fields => match fields with [] => false | _ => true end
  end.

(** [a == b].  [True == 1] and [False == 0] hold in Python; lists compare
    element by element, dicts member by member whatever the order. *)
Fixpoint py_eq (a b : json) {struct a} : bool :=
  match a, b with
  | JNull, JNull => true
  | JBool x, JBool y => Bool.eqb x y
  | JBool x, JNum m => Z.eqb (Z.b2z x) m
  | JNum n, JBool y => Z.eqb n (Z.b2z y)
  | JNum n, JNum m => Z.eqb n m
  | JStr s, JStr t => String.eqb s t
  | JArr l, JArr m =>
      (fix all2 (l m : list json) : bool :=
         match l, m with
         | [], [] => true
         | x :: l', y :: m' => py_eq x y && all2 l' m'
         | _, _ => false
         end) l m
  | JObj l, JObj m =>
      Nat.eqb (length l) (length m) &&
      (fix members (l : list (string * json)) : bool :=
         match l with
         | [] => true
         | (k, v) :: l' =>
             match dict_lookup k m with
             | Some w => py_eq v w
             | None => false
             end && members l'
         end) l
  | _, _ => false
  end.

(** [status in ("succeeded", "failed", "cancelled")] *)
Definition is_terminal (status : json) : bool :=
  py_eq status (JStr "succeeded") || py_eq status (JStr "failed")
  || py_eq status (JStr "cancelled").

(** The exceptions the tool bodies can raise. *)
Inductive exn : Type :=
| KeyError (key : json)
| TypeError
| AttributeError
| IndexError
| Exception (msg : string).

(** ** Events and the trace *)

(** The [information] argument of [notify]: a Python value, or an f-string
    made of a literal prefix and one interpolated value. *)
Inductive info : Type :=
| Val (v : json)
| Fmt (prefix : string) (v : json).

Definition text (s : string) : info := Val (JStr s).

(** [Content(type=..., content=[...])] *)
Record content_t : Type := Content {
  type : string;
  items : list dict
}.

(** The keyword arguments of one [notify] call.  [output] is true when the
    call passes [output=True]. *)
Record event : Type := Event {
  id : string;
  status : string;
  information : option info;
  content : option content_t;
  output : bool
}.

Inductive url : Type :=
| ImageGenerations
| ImageEdits
| VideoJobs
| VideoJob (job_id : json)
| VideoContent (generation_id : json)
| External (address : string).

(** One call to a collaborator. *)
Inductive action : Type :=
| Notify (e : event)
| Post (u : url)
| Get (u : url)
| Sleep (seconds : Z)
| SaveImage (b64 : json) (blob : string)
| SaveVideo (video : string) (blob : string).

Definition trace : Type := list action.

(** ** The monad of function bodies

    A statement appends to the trace and then goes on with a value, leaves
    the function by [return], raises, or is still running when the fuel of a
    loop is used up. *)
Inductive outcome (R A : Type) : Type :=
| Next (a : A)
| Return (r : R)
| Raise (e : exn)
| Pending.

Arguments Next {R A} a.
Arguments Return {R A} r.
Arguments Raise {R A} e.
Arguments Pending {R A}.

Definition M (R A : Type) : Type := (trace * outcome R A)%type.

Definition pure {R A} (a : A) : M R A := ([], Next a).

Definition bind {R A B} (m : M R A) (f : A -> M R B) : M R B :=
  match m with
  | (t, Next a) => let (t', o) := f a in (t ++ t', o)
  | (t, Return r) => (t, Return r)
  | (t, Raise e) => (t, Raise e)
  | (t, Pending) => (t, Pending)
  end.

Notation "x <- m ;; k" := (bind m (fun x => k))
  (at level 61, m at next level, right associativity).
Notation "m ;; k" := (bind m (fun _ => k))
  (at level 61, right associativity).

Definition act {R} (a : action) : M R unit := ([a], Next tt).
Definition notify {R} (e : event) : M R unit := act (Notify e).
Definition return_ {R A} (r : R) : M R A := ([], Return r).
Definition raise {R A} (e : exn) : M R A := ([], Raise e).

(** [d[k]] *)
Definition getitem {R} (d : dict) (k : string) : M R json :=
  match dict_lookup k d with
  | Some v => pure v
  | None => raise (KeyError (JStr k))
  end.

(** What the caller of a coroutine sees. *)
Inductive result (R : Type) : Type :=
| Returned (r : R)
| Raised (e : exn)
| Running.

Arguments Returned {R} r.
Arguments Raised {R} e.
Arguments Running {R}.

(** A body never falls off its end: it is typed with the empty type. *)
Definition call {R} (body : M R Empty_set) : trace * result R :=
  match body with
  | (t, Next a) => match a with end
  | (t, Return r) => (t, Returned r)
  | (t, Raise e) => (t, Raised e)
  | (t, Pending) => (t, Running)
  end.

(** The events of a trace, in order. *)
Fixpoint events (t : trace) : list event :=
  match t with
  | [] => []
  | Notify e :: t' => e :: events t'
  | _ :: t' => events t'
  end.

Definition has_status (s : string) (e : event) : bool :=
  String.eqb (status e) s.

(** The terminal phases: a run that completed, a step that failed. *)
Definition is_terminal_event (e : event) : bool :=
  has_status "run completed" e || has_status "step failed" e.



Definition is_save (a : action) : bool :=
  match a with SaveImage _ _ | SaveVideo _ _ => true | _ => false end.

Definition is_content_fetch (a : action) : bool :=
  match a with Get (VideoContent _) => true | _ => false end.

(** ** The collaborators *)

(** An HTTP response: [response.status], [await response.json()] and
    [response.content]. *)
Record http_response : Type := Response {
  status_code : Z;
  body : dict;
  payload : string
}.

(** What the video provider answers: to the job creation, to the [i]-th
    status fetch, and to the content fetch. *)
Record provider : Type := Provider {
  job_creation : http_response;
  job_status : nat -> http_response;
  video_content : http_response
}.

Section Tools.

(** Modelled from the spec: the persistence adapter [api.storage]
    ([save_image_blobs], [save_video_blob]) is not part of the sources.  It
    stores one blob per input, in input order, and hands back one reference
    for each: [save_image_blobs k b64] is the reference of the [k]-th blob
    of a call, [save_video_blob v] that of a video and
    [save_image_blob b64 folder] that of a single image put in a folder. *)
Variable save_image_blobs : nat -> json -> string.
Variable save_video_blob : string -> string.
Variable save_image_blob : json -> string -> string.

(** [[item["b64_json"] for item in items if item["b64_json"]]] *)
Fixpoint b64_payloads {R} (items : list json) : M R (list json) :=
  match items with
  | [] => pure []
  | JObj fields :: rest =>
      v <- getitem fields "b64_json";;
      tl <- b64_payloads rest;;
      pure (if truthy v then v :: tl else tl)
  | _ :: _ => raise TypeError
  end.

(** The comprehension over [response["data"]], which is truthy here: the
    members of a string or of a dict are strings, which have no string
    index, and a number is not iterable. *)
Definition base64_images {R} (data : json) : M R (list json) :=
  match data with
  | JArr items => b64_payloads items
  | _ => raise TypeError
  end.

(** [async for blob_name in save_image_blobs(base64_images)]: the adapter
    stores the [k]-th image and yields its reference, the loop body appends
    it to [images] and announces it, then the adapter goes on. *)
Fixpoint store_images {R} (announce : string -> event) (k : nat)
    (pending : list json) (images : list string) : M R (list string) :=
  match pending with
  | [] => pure images
  | b64 :: rest =>
      let blob_name := save_image_blobs k b64 in
      act (SaveImage b64 blob_name);;
      let images := images ++ [blob_name] in
      notify (announce blob_name);;
      store_images announce (S k) rest images
  end.

Definition image_generation_item (description blob_name : string) : event :=
  {| id := "image_generation";
     status := "step completed";
     information := None;
     content := Some {| type := "image";
                        items := [[("type", JStr "image");
                                   ("description", JStr description);
                                   ("size", JStr "1024x1024");
                                   ("quality", JStr "low");
                                   ("image_url", JStr blob_name)]] |};
     output := true |}.

(** [gpt_image_generation(description, n, notify)]; [response] is what
    [post_request] yields. *)
Definition gpt_image_generation (response : dict) (description : string)
    (n : Z) : M (list string) Empty_set :=
  notify {| id := "image_generation"; status := "run in_progress";
            information := Some (text "Starting image generation");
            content := None; output := false |};;
  notify {| id := "image_generation"; status := "step in_progress";
            information := Some (text "Executing Model");
            content := None; output := false |};;
  act (Post ImageGenerations);;
  if contains "error" response then
    error <- getitem response "error";;
    notify {| id := "image_generation"; status := "step failed";
              information := Some (Val error);
              content := None; output := false |};;
    return_ []
  else
    notify {| id := "image_generation"; status := "step in_progress";
              information := Some (text (if (1 <? n)%Z then "fetching images"
                                         else "fetching image"));
              content := None; output := false |};;
    data <- getitem response "data";;
    if negb (truthy data) then return_ []
    else
      notify {| id := "image_generation"; status := "step in_progress";
                information := Some (text (if (1 <? n)%Z then "storing images"
                                           else "storing image"));
                content := None; output := false |};;
      base64_images <- base64_images data;;
      images <- store_images (image_generation_item description) 0
                  base64_images [];;
      notify {| id := "image_generation"; status := "run completed";
                information := Some (text "Image generation complete");
                content := None; output := false |};;
      return_ images.

Definition image_edit_item (description kind blob : string) : event :=
  {| id := "image_edit";
     status := "step completed";
     information := None;
     content := Some {| type := "image";
                        items := [[("type", JStr "image");
                                   ("description", JStr description);
                                   ("image_url", JStr blob);
                                   ("kind", JStr kind)]] |};
     output := true |}.

(** [gpt_image_edit(description, image, kind, notify)]; [response] is what
    [post_request] yields for the multipart form.  [image] is taken to be
    well-formed base64, so that building the form does not raise. *)
Definition gpt_image_edit (response : dict) (description image kind : string)
    : M (list string) Empty_set :=
  notify {| id := "image_edit"; status := "run in_progress";
            information := Some (text "Starting image edit");
            content := None; output := false |};;
  notify {| id := "image_edit"; status := "step in_progress";
            information := Some (text "Executing Model");
            content := None; output := false |};;
  act (Post ImageEdits);;
  if contains "error" response then
    error <- getitem response "error";;
    notify {| id := "image_generation"; status := "step failed";
              information := Some (Val error);
              content := None; output := false |};;
    return_ []
  else
    notify {| id := "image_edit"; status := "step in_progress";
              information := Some (text "fetching image");
              content := None; output := false |};;
    data <- getitem response "data";;
    if negb (truthy data) then return_ []
    else
      notify {| id := "image_edit"; status := "step in_progress";
                information := Some (text "storing image");
                content := None; output := false |};;
      base64_images <- base64_images data;;
      images <- store_images (image_edit_item description kind) 0
                  base64_images [];;
      notify {| id := "image_edit"; status := "run completed";
                information := Some (text "Image edit complete");
                content := None; output := false |};;
      return_ images.

(** [generations[0].get("id")] for a truthy [generations]. *)
Definition first_generation_id {R} (generations : json) : M R json :=
  match generations with
  | JArr (JObj fields :: _) => pure (dict_get fields "id" JNull)
  | JArr (_ :: _) => raise AttributeError
  | JArr [] => raise IndexError
  | JStr _ => raise AttributeError
  | JObj _ => raise (KeyError (JNum 0))
  | _ => raise TypeError
  end.

(** The polling loop of [sora_video_generation]:
    [while status not in ("succeeded", "failed", "cancelled")].  [i] counts
    the status fetches made so far; [fuel] bounds the iterations the model
    follows, the loop itself has no bound. *)
Fixpoint poll (p : provider) (job_id : json) (fuel i : nat) (status : json)
    (status_data : dict) : M (list string) (json * dict) :=
  if is_terminal status then pure (status, status_data)
  else
    match fuel with
    | O => ([], Pending)
    | S fuel' =>
        act (Sleep 5);;
        act (Get (VideoJob job_id));;
        let status_response := job_status p i in
        if negb (status_code status_response =? 200)%Z then
          let error_response := body status_response in
          notify {| id := "sora_video_generation"; status := "step failed";
                    information :=
                      Some (Val (dict_get error_response "error"
                                   (JStr "Unknown error")));
                    content := None; output := false |};;
          return_ []
        else
          let status_data := body status_response in
          observed <- getitem status_data "status";;
          (if negb (py_eq status observed) then
             notify {| id := "sora_video_generation";
                       status := "step in_progress";
                       information := Some (Fmt "job status: " observed);
                       content := None; output := false |}
           else pure tt);;
          poll p job_id fuel' (S i) observed status_data
    end.

(** [sora_video_generation(description, seconds, notify)] against the
    provider [p]. *)
Definition sora_video_generation (p : provider) (fuel : nat)
    (description : string) (seconds : Z) : M (list string) Empty_set :=
  notify {| id := "sora_video_generation"; status := "run in_progress";
            information := Some (text "Starting video generation");
            content := None; output := false |};;
  notify {| id := "sora_video_generation"; status := "step in_progress";
            information := Some (text "Executing Model");
            content := None; output := false |};;
  act (Post VideoJobs);;
  let response := job_creation p in
  if negb (status_code response =? 201)%Z then
    let error_response := body response in
    notify {| id := "sora_video_generation"; status := "step failed";
              information :=
                Some (Val (dict_get error_response "detail"
                             (JStr "Unknown error")));
              content := None; output := false |};;
    return_ []
  else
    let response_data := body response in
    job_id <- getitem response_data "id";;
    notify {| id := "sora_video_generation"; status := "step_in_progress";
              information := Some (Fmt "Video generation job created: " job_id);
              content := None; output := false |};;
    polled <- poll p job_id fuel 0 (JStr "started") [];;
    let (status, status_data) := (polled : json * dict) in
    (if py_eq status (JStr "succeeded") then
       let generations := dict_get status_data "generations" (JArr []) in
       if truthy generations then
         generation_id <- first_generation_id generations;;
         act (Get (VideoContent generation_id));;
         let video_response := video_content p in
         if negb (status_code video_response =? 200)%Z then
           let error_response := body video_response in
           notify {| id := "video_generation"; status := "step failed";
                     information :=
                       Some (Val (dict_get error_response "error"
                                    (JStr "Unknown error")));
                     content := None; output := false |};;
           return_ []
         else
           notify {| id := "sora_video_generation";
                     status := "step in_progress";
                     information := Some (text "Moving video to storage");
                     content := None; output := false |};;
           let video_blob := save_video_blob (payload video_response) in
           act (SaveVideo (payload video_response) video_blob);;
           notify {| id := "sora_video_generation";
                     status := "step completed";
                     information := None;
                     content :=
                       Some {| type := "video";
                               items := [[("type", JStr "video");
                                          ("description", JStr description);
                                          ("video_url", JStr video_blob);
                                          ("duration", JNum seconds)]] |};
                     output := true |}
       else pure tt
     else pure tt);;
    notify {| id := "sora_video_generation"; status := "run completed";
              information := Some (text "Video generation complete");
              content := None; output := false |};;
    return_ [EmptyString].

(** The tail of [create_image], from the fetch of the reference image on:
    [image] is [request.image], [fetched] the response to the GET of that
    URL, [response] the provider's answer to the form.  The result is the
    [image_url] of the [ImageResponse]. *)
Definition create_image (base_url : string) (image : option string)
    (fetched response : http_response) : M string Empty_set :=
  (match image with
   | Some address =>
       if String.prefix "http" address then
         act (Get (External address));;
         if (status_code fetched =? 200)%Z then pure tt
         else raise (Exception
                       ("Error fetching image from URL: " ++ address)%string)
       else pure tt
   | None => pure tt
   end);;
  act (Post ImageEdits);;
  (if (status_code response =? 200)%Z then
     let result := body response in
     if truthy (JObj result) && contains "data" result then
       data <- getitem result "data";;
       match data with
       | JArr [] | JStr EmptyString | JObj [] => pure tt
       | JArr (JObj fields :: _) =>
           image_base64 <- getitem fields "b64_json";;
           let image_name := save_image_blob image_base64 "tools" in
           act (SaveImage image_base64 image_name);;
           return_ (base_url ++ "/" ++ image_name)%string
       | JObj _ => raise (KeyError (JNum 0))
       | _ => raise TypeError
       end
     else pure tt
   else
     let error_message := payload response in
     raise (Exception ("Error generating image: " ++ error_message)%string));;
  raise (Exception "No image data returned from the API.").

End Tools.

(** ** Vocabulary of the properties *)

Definition run (R : Type) (body : M R Empty_set) : trace := fst (call body).
Definition value (R : Type) (body : M R Empty_set) : result R :=
  snd (call body).
Arguments run {R} body.
Arguments value {R} body.

(** The event by which the polling loop reports an observed job status. *)
Definition status_change (observed : json) : event :=
  {| id := "sora_video_generation"; status := "step in_progress";
     information := Some (Fmt "job status: " observed);
     content := None; output := false |}.

Definition is_status_change (e : event) : bool :=
  match information e with
  | Some (Fmt prefix _) => String.eqb prefix "job status: "
  | _ => false
  end.

(** The provider answers the status fetches number [i], [i+1], ... with
    code 200 and these statuses. *)
Fixpoint observes (p : provider) (i : nat) (statuses : list json) : Prop :=
  match statuses with
  | [] => True
  | s :: rest =>
      status_code (job_status p i) = 200%Z /\
      dict_lookup "status" (body (job_status p i)) = Some s /\
      observes p (S i) rest
  end.

(** Every status but the last one leaves the loop running. *)
Fixpoint keeps_polling (previous : json) (statuses : list json) : bool :=
  match statuses with
  | [] => true
  | s :: rest => negb (is_terminal previous) && keeps_polling s rest
  end.

(** The statuses that differ from the one observed before them. *)
Fixpoint changes (previous : json) (statuses : list json) : list json :=
  match statuses with
  | [] => []
  | s :: rest =>
      if py_eq previous s then changes s rest else s :: changes s rest
  end.

(** What the loop does while it observes [statuses] after [previous]. *)
Fixpoint polled (job_id previous : json) (statuses : list json) : trace :=
  match statuses with
  | [] => []
  | s :: rest =>
      Sleep 5 :: Get (VideoJob job_id) ::
      (if py_eq previous s then [] else [Notify (status_change s)]) ++
      polled job_id s rest
  end.

(** The status the loop holds after it observed [statuses]. *)
Fixpoint last_status (previous : json) (statuses : list json) : json :=
  match statuses with
  | [] => previous
  | s :: rest => last_status s rest
  end.

(** The body of the last status response fetched. *)
Fixpoint last_data (p : provider) (i : nat) (statuses : list json)
    (status_data : dict) : dict :=
  match statuses with
  | [] => status_data
  | _ :: rest => last_data p (S i) rest (body (job_status p i))
  end.




(** What the video tool does up to the first round of the loop, once the
    job [job] is created. *)
Definition sora_prefix (job : json) : trace :=
  [Notify {| id := "sora_video_generation"; status := "run in_progress";
             information := Some (text "Starting video generation");
             content := None; output := false |};
   Notify {| id := "sora_video_generation"; status := "step in_progress";
             information := Some (text "Executing Model");
             content := None; output := false |};
   Post VideoJobs;
   Notify {| id := "sora_video_generation"; status := "step_in_progress";
             information := Some (Fmt "Video generation job created: " job);
             content := None; output := false |}].

Definition sora_completed : event :=
  {| id := "sora_video_generation"; status := "run completed";
     information := Some (text "Video generation complete");
     content := None; output := false |}.

Definition sora_moving : event :=
  {| id := "sora_video_generation"; status := "step in_progress";
     information := Some (text "Moving video to storage");
     content := None; output := false |}.

Definition sora_item (description : string) (seconds : Z)
    (video_blob : string) : event :=
  {| id := "sora_video_generation"; status := "step completed";
     information := None;
     content := Some {| type := "video";
                        items := [[("type", JStr "video");
                                   ("description", JStr description);
                                   ("video_url", JStr video_blob);
                                   ("duration", JNum seconds)]] |};
     output := true |}.


Definition fetch_failed (error_response : dict) : event :=
  {| id := "video_generation"; status := "step failed";
     information := Some (Val (dict_get error_response "error"
                                 (JStr "Unknown error")));
     content := None; output := false |}.

(** The references the adapter hands back for a list of images. *)
Fixpoint blob_names (save : nat -> json -> string) (k : nat)
    (images : list json) : list string :=
  match images with
  | [] => []
  | b64 :: rest => save k b64 :: blob_names save (S k) rest
  end.

(** What the storing loop does for a list of images: each one is stored and
    then announced before the next one is stored. *)
Fixpoint stored (save : nat -> json -> string) (announce : string -> event)
    (k : nat) (images : list json) : trace :=
  match images with
  | [] => []
  | b64 :: rest =>
      SaveImage b64 (save k b64) :: Notify (announce (save k b64)) ::
      stored save announce (S k) rest
  end.


(** The events of the image tools around the storing loop. *)
Definition generation_prefix (n : Z) : trace :=
  [Notify {| id := "image_generation"; status := "run in_progress";
             information := Some (text "Starting image generation");
             content := None; output := false |};
   Notify {| id := "image_generation"; status := "step in_progress";
             information := Some (text "Executing Model");
             content := None; output := false |};
   Post ImageGenerations;
   Notify {| id := "image_generation"; status := "step in_progress";
             information := Some (text (if (1 <? n)%Z then "fetching images"
                                        else "fetching image"));
             content := None; output := false |}].



Definition edit_prefix : trace :=
  [Notify {| id := "image_edit"; status := "run in_progress";
             information := Some (text "Starting image edit");
             content := None; output := false |};
   Notify {| id := "image_edit"; status := "step in_progress";
             information := Some (text "Executing Model");
             content := None; output := false |};
   Post ImageEdits;
   Notify {| id := "image_edit"; status := "step in_progress";
             information := Some (text "fetching image");
             content := None; output := false |}].

Definition edit_storing : event :=
  {| id := "image_edit"; status := "step in_progress";
     information := Some (text "storing image");
     content := None; output := false |}.

Definition edit_completed : event :=
  {| id := "image_edit"; status := "run completed";
     information := Some (text "Image edit complete");
     content := None; output := false |}.


(** A result entry of the image provider and the payload it carries. *)
Definition carries (entry b64 : json) : Prop :=
  exists fields,
    entry = JObj fields /\ dict_lookup "b64_json" fields = Some b64.

(** ** Scenarios *)

Definition created (job : string) : http_response :=
  {| status_code := 201; body := [("id", JStr job)];
     payload := EmptyString |}.

Definition job_in (s : string) (extra : dict) : http_response :=
  {| status_code := 200; body := ("status", JStr s) :: extra;
     payload := EmptyString |}.

(** A provider that answers the status fetches with [answers] and keeps the
    job running afterwards. *)
Definition script (answers : list http_response) (i : nat) : http_response :=
  nth i answers (job_in "running" []).

Definition one_generation : dict :=
  [("generations", JArr [JObj [("id", JStr "gen-1")]])].

Definition video_ok : http_response :=
  {| status_code := 200; body := []; payload := "mp4 bytes" |}.

(** Scenario B: queued, running, succeeded, one generation, content there. *)
Definition scenario_B : provider :=
  {| job_creation := created "job-1";
     job_status := script [job_in "queued" []; job_in "running" [];
                           job_in "succeeded" one_generation];
     video_content := video_ok |}.

(** Scenario C: queued, failed. *)
Definition scenario_C : provider :=
  {| job_creation := created "job-1";
     job_status := script [job_in "queued" []; job_in "failed" []];
     video_content := video_ok |}.

(** The statuses of property P2. *)
Definition scenario_P2 : provider :=
  {| job_creation := created "job-1";
     job_status := script [job_in "queued" []; job_in "queued" [];
                           job_in "running" []; job_in "running" [];
                           job_in "succeeded" one_generation];
     video_content := video_ok |}.

(** A job that never leaves the queue. *)
Definition stuck : provider :=
  {| job_creation := created "job-1";
     job_status := fun _ => job_in "queued" [];
     video_content := video_ok |}.





(** An answer of the image provider to [create_image] that is an error. *)
Definition server_error : http_response :=
  {| status_code := 500; body := []; payload := "server error" |}.

Definition video_store (video : string) : string := "video-blob-1.mp4".

(** Storage that numbers the blobs of a call: blob-1.png, blob-2.png, ... *)
Definition numbered (k : nat) (b64 : json) : string :=
  "blob-" ++ NilEmpty.string_of_uint (Nat.to_uint (S k)) ++ ".png".

Definition single_store (b64 : json) (folder : string) : string :=
  folder ++ "/image.png".

Definition two_images : dict :=
  [("data", JArr [JObj [("b64_json", JStr "aGVsbG8=")];
                  JObj [("b64_json", JStr "d29ybGQ=")]])].

Definition no_images : dict := [("data", JArr [])].

Definition provider_error : dict :=
  [("error", JObj [("message", JStr "bad request")])].

(** ** The other tools *)

(** [s.replace(old, "")] for a non-empty [old]: the occurrences of [old] are
    removed from left to right, and the scan goes on after a removed
    occurrence.  [skip] counts the characters of the occurrence found that
    are still to be dropped. *)
Fixpoint remove_from (old : string) (skip : nat) (s : string) : string :=
  match s with
  | EmptyString => EmptyString
  | String c s' =>
      match skip with
      | S skip' => remove_from old skip' s'
      | O =>
          if String.prefix old s
          then remove_from old (String.length old - 1) s'
          else String c (remove_from old 0 s')
      end
  end.

Definition str_remove (old s : string) : string := remove_from old 0 s.

Definition jpeg_prefix : string := "data:image/jpeg;base64,".

Definition image_capture_item (description kind blob : string) : event :=
  {| id := "image_capture";
     status := "step completed";
     information := None;
     content := Some {| type := "image";
                        items := [[("type", JStr "image");
                                   ("description", JStr description);
                                   ("image_url", JStr blob);
                                   ("kind", JStr kind)]] |};
     output := true |}.

(** [gpt_image_capture(image, kind, notify)].  [describe] is what
    [prompty.execute_async] answers for the image it is given; that call is
    not recorded in the trace.  [save] is the adapter [save_image_blobs]. *)
Definition gpt_image_capture (save : nat -> json -> string)
    (describe : string -> string) (image kind : string)
    : M (list string) Empty_set :=
  notify {| id := "image_capture"; status := "run_in_progress";
            information := Some (text "Starting image description generation");
            content := None; output := false |};;
  let image :=
    if negb (String.prefix jpeg_prefix image)
    then (jpeg_prefix ++ image)%string
    else image in
  let description := describe image in
  notify {| id := "image_capture"; status := "run_in_progress";
            information := Some (text "Persisting image and description");
            content := None; output := false |};;
  images <- store_images save (image_capture_item description kind) 0
              [JStr (str_remove jpeg_prefix image)] [];;
  notify {| id := "image_capture"; status := "run completed";
            information := Some (text "Image capture complete");
            content := None; output := false |};;
  return_ images.

(** The keyword arguments of a call to [execute_foundry_agent]. *)
Record foundry_call : Type := FoundryCall {
  agent_id : string;
  additional_instructions : string;
  query : string;
  tools : dict
}.

Definition nl : string := String (ascii_of_nat 10) EmptyString.

(** [publish_linkedin_post(content, image_url, notify)]: the call it makes to
    [execute_foundry_agent], to which it hands its notifier. *)
Definition publish_linkedin_post (content image_url : string)
    : foundry_call :=
  let instructions :=
    (nl ++ "Use the following `image_url`: " ++ image_url ++ nl ++
     "Use this `image_url` exactly as it is. " ++
     "Do not change the image_url or the content of the post."
     ++ nl ++ "The post should be in markdown format." ++ nl)%string in
  {| agent_id := "asst_MbvKNQxeTr5DL1wuE8DRYR3M";
     additional_instructions := instructions;
     query := ("Can you write a LinkedIn post based on the following content?"
               ++ nl ++ nl ++ content)%string;
     tools := [] |}.

(** [zava_custom_agent(description, image_url, notify)]: the call it makes to
    [execute_foundry_agent]. *)
Definition zava_custom_agent (description image_url : string)
    : foundry_call :=
  let instructions :=
    if (0 <? String.length image_url)%nat then
      (nl ++ "        Use the following `image_url`: " ++ image_url ++ nl ++
       "        IMPORTANT: Use this `image_url` exactly as it is " ++
       "when calling your tools. Do not change the image_url."
       ++ nl ++ "        ")%string
    else EmptyString in
  {| agent_id := "asst_rdQIFaUBX7dVbdSFedJbQSpJ";
     additional_instructions := instructions;
     query := description;
     tools := [] |}.

(** ** Vocabulary of the further properties *)

(** A storage call or the announcement of a stored artifact. *)
Definition is_save_or_item (a : action) : bool :=
  match a with
  | SaveImage _ _ | SaveVideo _ _ => true
  | Notify e => has_status "step completed" e
  | _ => false
  end.

(** No status of the list equals the one before it. *)
Fixpoint no_repeat (previous : json) (statuses : list json) : Prop :=
  match statuses with
  | [] => True
  | s :: rest => s <> previous /\ no_repeat s rest
  end.

(** The character [c] occurs in [s]. *)
Fixpoint occurs (c : ascii) (s : string) : bool :=
  match s with
  | EmptyString => false
  | String c' s' => Ascii.eqb c c' || occurs c s'
  end.

Definition job_created (p : provider) (job : json) : Prop :=
  status_code (job_creation p) = 201%Z /\
  dict_lookup "id" (body (job_creation p)) = Some job.

(** Every status fetch is answered with code 200 and a status that is none
    of succeeded, failed and cancelled. *)
Definition never_ends (p : provider) : Prop :=
  forall i,
    status_code (job_status p i) = 200%Z /\
    exists s, dict_lookup "status" (body (job_status p i)) = Some s /\
              is_terminal s = false.


(** An answer to [create_image] with two result entries. *)
Definition two_results : http_response :=
  {| status_code := 200; body := two_images; payload := EmptyString |}.

Definition describe_any (image : string) : string := "a person at a desk".

(** ** The monad and the trace *)

Lemma bind_next R A B (t : trace) (a : A) (f : A -> M R B) :
  bind (t, Next a) f = (t ++ fst (f a), snd (f a)).
Proof. unfold bind. destruct (f a); reflexivity. Qed.

Lemma bind_act R B (a : action) (f : unit -> M R B) :
  bind (act a) f = (a :: fst (f tt), snd (f tt)).
Proof. unfold act. rewrite bind_next. reflexivity. Qed.

Lemma bind_pure R A B (a : A) (f : A -> M R B) : bind (pure a) f = f a.
Proof. unfold pure. rewrite bind_next. destruct (f a); reflexivity. Qed.

Lemma events_app (t u : trace) : events (t ++ u) = events t ++ events u.
Proof.
  induction t as [|a t IH]; simpl; [reflexivity|].
  destruct a; simpl; rewrite IH; reflexivity.
Qed.

(** ** The polling loop *)

Lemma poll_terminal p job fuel i status status_data :
  is_terminal status = true ->
  poll p job fuel i status status_data = pure (status, status_data).
Proof. intros H. destruct fuel; simpl; rewrite H; reflexivity. Qed.

(** While the provider answers with code 200 and the job goes on, the loop
    sleeps, fetches, reports the changes and goes round again. *)
Lemma poll_observes p job statuses :
  forall fuel i status status_data,
    observes p i statuses ->
    keeps_polling status statuses = true ->
    poll p job (length statuses + fuel) i status status_data =
    (polled job status statuses ++
       fst (poll p job fuel (length statuses + i) (last_status status statuses)
              (last_data p i statuses status_data)),
     snd (poll p job fuel (length statuses + i) (last_status status statuses)
            (last_data p i statuses status_data))).
Proof.
  induction statuses as [|s rest IH]; intros fuel i status status_data Hobs Hgo.
  - simpl. destruct (poll p job fuel i status status_data); reflexivity.
  - destruct Hobs as (Hcode & Hstatus & Hobs).
    simpl in Hgo. apply andb_true_iff in Hgo. destruct Hgo as [Hrun Hgo].
    apply negb_true_iff in Hrun.
    cbn [length Nat.add poll]. rewrite Hrun.
    rewrite !bind_act. cbn [fst snd].
    rewrite Hcode. cbn [Z.eqb Pos.eqb negb].
    unfold getitem. rewrite Hstatus. rewrite bind_pure.
    rewrite (IH fuel (S i) s (body (job_status p i)) Hobs Hgo).
    replace (length rest + S i) with (S (length rest + i)) by lia.
    cbn [last_status last_data polled].
    destruct (py_eq status s); cbn [negb].
    + rewrite bind_pure. reflexivity.
    + unfold notify. rewrite bind_act. reflexivity.
Qed.

Lemma poll_exits p job statuses fuel :
  observes p 0 statuses ->
  keeps_polling (JStr "started") statuses = true ->
  is_terminal (last_status (JStr "started") statuses) = true ->
  poll p job (length statuses + fuel) 0 (JStr "started") [] =
  (polled job (JStr "started") statuses,
   Next (last_status (JStr "started") statuses, last_data p 0 statuses [])).
Proof.
  intros Hobs Hgo Hend.
  rewrite (poll_observes p job statuses fuel 0 _ _ Hobs Hgo).
  rewrite (poll_terminal _ _ _ _ _ _ Hend). simpl.
  rewrite app_nil_r. reflexivity.
Qed.





Lemma polled_events job previous statuses :
  events (polled job previous statuses) =
  map status_change (changes previous statuses).
Proof.
  revert previous.
  induction statuses as [|s rest IH]; intros previous; simpl; [reflexivity|].
  rewrite events_app, IH.
  destruct (py_eq previous s); reflexivity.
Qed.



(** ** The video tool *)

Ltac sora_created Hcode Hid :=
  unfold run, value, sora_video_generation;
  rewrite !bind_act; rewrite Hcode; cbn [Z.eqb Pos.eqb negb];
  unfold getitem; rewrite Hid; rewrite bind_pure;
  unfold notify; rewrite bind_act.

Ltac flatten_trace :=
  cbn [fst snd call app events filter];
  rewrite ?events_app, ?filter_app, ?app_nil_r.


(** The status changes a run reports are those of its loop. *)
Lemma sora_status_changes svb p fuel d s job :
  status_code (job_creation p) = 201%Z ->
  dict_lookup "id" (body (job_creation p)) = Some job ->
  filter is_status_change
    (events (run (sora_video_generation svb p fuel d s))) =
  filter is_status_change
    (events (fst (poll p job fuel 0 (JStr "started") []))).
Proof.
  intros Hcode Hid. sora_created Hcode Hid.
  destruct (poll p job fuel 0 (JStr "started") [])
    as [t [[status status_data]| r | e |]]; try reflexivity.
  rewrite bind_next. cbn [fst snd].
  destruct (py_eq status (JStr "succeeded"));
    [destruct (truthy (dict_get status_data "generations" (JArr [])));
     [destruct (dict_get status_data "generations" (JArr []))
        as [| | | |[|[]]|]; unfold first_generation_id;
      rewrite ?bind_pure, ?bind_act;
      try destruct (status_code (video_content p) =? 200)%Z| ]| ];
    simpl; flatten_trace; simpl; rewrite ?app_nil_r; reflexivity.
Qed.

Lemma status_changes_all previous statuses :
  filter is_status_change (map status_change (changes previous statuses)) =
  map status_change (changes previous statuses).
Proof.
  induction (changes previous statuses) as [|s l IH]; simpl;
    [reflexivity | rewrite IH; reflexivity].
Qed.

(** A run whose job ends in a terminal status other than succeeded. *)
Lemma sora_not_succeeded svb p fuel d s job statuses :
  status_code (job_creation p) = 201%Z ->
  dict_lookup "id" (body (job_creation p)) = Some job ->
  observes p 0 statuses ->
  keeps_polling (JStr "started") statuses = true ->
  is_terminal (last_status (JStr "started") statuses) = true ->
  py_eq (last_status (JStr "started") statuses) (JStr "succeeded") = false ->
  call (sora_video_generation svb p (length statuses + fuel) d s) =
  (sora_prefix job ++ polled job (JStr "started") statuses ++
     [Notify sora_completed],
   Returned [EmptyString]).
Proof.
  intros Hcode Hid Hobs Hgo Hend Hne. sora_created Hcode Hid.
  rewrite (poll_exits p job statuses fuel Hobs Hgo Hend).
  rewrite bind_next. cbn [fst snd]. rewrite Hne.
  rewrite bind_pure. rewrite bind_act. reflexivity.
Qed.

(** A run whose job succeeds with one generation whose content is there. *)
Lemma sora_succeeded svb p fuel d s job statuses fields more :
  status_code (job_creation p) = 201%Z ->
  dict_lookup "id" (body (job_creation p)) = Some job ->
  observes p 0 statuses ->
  keeps_polling (JStr "started") statuses = true ->
  last_status (JStr "started") statuses = JStr "succeeded" ->
  dict_get (last_data p 0 statuses []) "generations" (JArr []) =
    JArr (JObj fields :: more) ->
  call (sora_video_generation svb p (length statuses + fuel) d s) =
  if (status_code (video_content p) =? 200)%Z then
    (sora_prefix job ++ polled job (JStr "started") statuses ++
       [Get (VideoContent (dict_get fields "id" JNull));
        Notify sora_moving;
        SaveVideo (payload (video_content p))
          (svb (payload (video_content p)));
        Notify (sora_item d s (svb (payload (video_content p))));
        Notify sora_completed],
     Returned [EmptyString])
  else
    (sora_prefix job ++ polled job (JStr "started") statuses ++
       [Get (VideoContent (dict_get fields "id" JNull));
        Notify (fetch_failed (body (video_content p)))],
     Returned []).
Proof.
  intros Hcode Hid Hobs Hgo Hlast Hgen. sora_created Hcode Hid.
  assert (Hend : is_terminal (last_status (JStr "started") statuses) = true)
    by (rewrite Hlast; reflexivity).
  rewrite (poll_exits p job statuses fuel Hobs Hgo Hend).
  rewrite bind_next. cbn [fst snd]. rewrite Hlast, Hgen.
  cbn [py_eq String.eqb Ascii.eqb Bool.eqb truthy first_generation_id].
  rewrite bind_pure, bind_act.
  destruct (status_code (video_content p) =? 200)%Z; reflexivity.
Qed.


Lemma polled_events_none (f : event -> bool) job previous statuses :
  (forall s, f (status_change s) = false) ->
  filter f (events (polled job previous statuses)) = [].
Proof.
  intros Hf. rewrite polled_events.
  induction (changes previous statuses) as [|s l IH]; simpl;
    [reflexivity | rewrite Hf; exact IH].
Qed.

Lemma polled_no_content_fetch job previous statuses :
  filter is_content_fetch (polled job previous statuses) = [].
Proof.
  revert previous.
  induction statuses as [|s rest IH]; intros previous; simpl; [reflexivity|].
  rewrite filter_app, IH. destruct (py_eq previous s); reflexivity.
Qed.

Lemma polled_no_save job previous statuses :
  filter is_save (polled job previous statuses) = [].
Proof.
  revert previous.
  induction statuses as [|s rest IH]; intros previous; simpl; [reflexivity|].
  rewrite filter_app, IH. destruct (py_eq previous s); reflexivity.
Qed.

(** C2. What the code does when the job ends in failed or cancelled: no
    content is fetched, but no step failed event is emitted either; the run
    is reported as completed and the tool returns the list holding the empty
    string, not the empty list. *)
Theorem failed_job_reported_completed svb p fuel d s job statuses
  (created_ok : status_code (job_creation p) = 201%Z)
  (job_id : dict_lookup "id" (body (job_creation p)) = Some job)
  (observed : observes p 0 statuses)
  (going : keeps_polling (JStr "started") statuses = true)
  (ended : last_status (JStr "started") statuses = JStr "failed" \/
           last_status (JStr "started") statuses = JStr "cancelled") :
  let tool := sora_video_generation svb p (length statuses + fuel) d s in
  filter is_content_fetch (run tool) = [] /\
  filter (has_status "step failed") (events (run tool)) = [] /\
  filter (has_status "run completed") (events (run tool)) = [sora_completed] /\
  value tool = Returned [EmptyString].
Proof.
  cbv zeta. unfold run, value.
  rewrite (sora_not_succeeded svb p fuel d s job statuses created_ok job_id
             observed going)
    by (destruct ended as [E|E]; rewrite E; reflexivity).
  cbn [fst snd]. rewrite !filter_app, !events_app, !filter_app.
  rewrite polled_no_content_fetch.
  rewrite !polled_events_none by reflexivity.
  repeat split.
Qed.

Lemma failed_job_reported_completed_witness :
  filter (has_status "step failed")
    (events (run (sora_video_generation video_store scenario_C 2 "a cat" 5)))
    = [] /\
  value (sora_video_generation video_store scenario_C 2 "a cat" 5)
    = Returned [EmptyString].
Proof.
  pose proof (failed_job_reported_completed video_store scenario_C 0 "a cat" 5
                (JStr "job-1") [JStr "queued"; JStr "failed"]
                eq_refl eq_refl
                (conj eq_refl (conj eq_refl (conj eq_refl (conj eq_refl I))))
                eq_refl (or_introl eq_refl)) as H.
  cbv zeta in H. destruct H as (_ & Hfailed & _ & Hvalue).
  split; [exact Hfailed | exact Hvalue].
Defined.

(** C3. What the code does on a fully successful run: the video is stored
    once and announced with its reference, and the tool returns the list
    holding the empty string, whatever the stored reference is. *)
Theorem stored_video_not_returned svb p fuel d s job statuses fields more
  (created_ok : status_code (job_creation p) = 201%Z)
  (job_id : dict_lookup "id" (body (job_creation p)) = Some job)
  (observed : observes p 0 statuses)
  (going : keeps_polling (JStr "started") statuses = true)
  (succeeded : last_status (JStr "started") statuses = JStr "succeeded")
  (one : dict_get (last_data p 0 statuses []) "generations" (JArr []) =
         JArr (JObj fields :: more))
  (fetched : status_code (video_content p) = 200%Z) :
  let tool := sora_video_generation svb p (length statuses + fuel) d s in
  let video_blob := svb (payload (video_content p)) in
  filter is_save (run tool) =
    [SaveVideo (payload (video_content p)) video_blob] /\
  filter (has_status "step completed") (events (run tool)) =
    [sora_item d s video_blob] /\
  filter (has_status "run completed") (events (run tool)) = [sora_completed] /\
  value tool = Returned [EmptyString].
Proof.
  cbv zeta. unfold run, value.
  rewrite (sora_succeeded svb p fuel d s job statuses fields more created_ok
             job_id observed going succeeded one).
  rewrite fetched. cbn [Z.eqb Pos.eqb fst snd].
  rewrite !filter_app, !events_app, !filter_app.
  rewrite polled_no_save.
  rewrite !polled_events_none by reflexivity.
  repeat split.
Qed.

Lemma stored_video_not_returned_witness :
  filter (has_status "step completed")
    (events (run (sora_video_generation video_store scenario_B 3 "a cat" 5)))
    = [sora_item "a cat" 5 "video-blob-1.mp4"] /\
  value (sora_video_generation video_store scenario_B 3 "a cat" 5)
    = Returned [EmptyString].
Proof.
  pose proof (stored_video_not_returned video_store scenario_B 0 "a cat" 5
                (JStr "job-1")
                [JStr "queued"; JStr "running"; JStr "succeeded"]
                [("id", JStr "gen-1")] []
                eq_refl eq_refl
                (conj eq_refl (conj eq_refl (conj eq_refl (conj eq_refl
                   (conj eq_refl (conj eq_refl I))))))
                eq_refl eq_refl eq_refl eq_refl) as H.
  cbv zeta in H. destruct H as (_ & Hitem & _ & Hvalue).
  split; [exact Hitem | exact Hvalue].
Defined.



(** C4, as the code has it.  The loop reports an observed status exactly
    when it differs from the status observed before it, where the status
    before the first fetch is the initial "started": the status changes of a
    run are the changes of the polled sequence counted from "started".  For
    queued, queued, running, running, succeeded these are three events:
    queued, running and succeeded. *)
Theorem status_changes_edge_triggered svb p fuel d s job statuses
  (created_ok : status_code (job_creation p) = 201%Z)
  (job_id : dict_lookup "id" (body (job_creation p)) = Some job)
  (observed : observes p 0 statuses)
  (going : keeps_polling (JStr "started") statuses = true)
  (ended : is_terminal (last_status (JStr "started") statuses) = true) :
  filter is_status_change
    (events (run (sora_video_generation svb p (length statuses + fuel) d s)))
  = map status_change (changes (JStr "started") statuses) /\
  filter is_status_change
    (events (run (sora_video_generation video_store scenario_P2 5 d s)))
  = [status_change (JStr "queued"); status_change (JStr "running");
     status_change (JStr "succeeded")].
Proof.
  split.
  - rewrite (sora_status_changes svb p _ d s job created_ok job_id).
    rewrite (poll_exits p job statuses fuel observed going ended).
    cbn [fst]. rewrite polled_events. apply status_changes_all.
  - rewrite (sora_status_changes video_store scenario_P2 5 d s (JStr "job-1")
               eq_refl eq_refl).
    reflexivity.
Qed.

Lemma status_changes_edge_triggered_witness :
  filter is_status_change
    (events (run (sora_video_generation video_store scenario_B 3 "a cat" 5)))
  = [status_change (JStr "queued"); status_change (JStr "running");
     status_change (JStr "succeeded")].
Proof.
  exact (proj1 (status_changes_edge_triggered video_store scenario_B 0 "a cat"
                  5 (JStr "job-1")
                  [JStr "queued"; JStr "running"; JStr "succeeded"]
                  eq_refl eq_refl
                  (conj eq_refl (conj eq_refl (conj eq_refl (conj eq_refl
                     (conj eq_refl (conj eq_refl I))))))
                  eq_refl eq_refl)).
Defined.

(** C4 as stated fails: the sequence of P2 yields three status-change
    events, not two. *)
Lemma two_status_changes_refuted :
  length (filter is_status_change
            (events (run (sora_video_generation video_store scenario_P2 5
                            "a cat" 5)))) <> 2.
Proof. vm_compute. discriminate. Qed.

(** ** The image tools *)

Lemma b64_payloads_carries R entries payloads :
  Forall2 carries entries payloads ->
  @b64_payloads R entries = pure (filter truthy payloads).
Proof.
  induction 1 as [|entry b64 entries payloads (fields & -> & Hb64) _ IH];
    [reflexivity|].
  cbn [b64_payloads filter]. unfold getitem. rewrite Hb64, IH.
  rewrite !bind_pure. reflexivity.
Qed.

Lemma store_images_stored R save announce pending :
  forall k images,
    @store_images save R announce k pending images =
    (stored save announce k pending,
     Next (images ++ blob_names save k pending)).
Proof.
  induction pending as [|b64 rest IH]; intros k images.
  - simpl. rewrite app_nil_r. reflexivity.
  - cbn [store_images stored blob_names]. unfold notify.
    rewrite !bind_act, IH. cbn [fst snd].
    rewrite <- app_assoc. reflexivity.
Qed.


Lemma stored_events save announce images :
  forall k,
    events (stored save announce k images) =
    map announce (blob_names save k images).
Proof.
  induction images as [|b64 rest IH]; intros k; simpl;
    [reflexivity | rewrite IH; reflexivity].
Qed.










Lemma edit_succeeds save response d image kind entry entries payloads :
  contains "error" response = false ->
  dict_lookup "data" response = Some (JArr (entry :: entries)) ->
  Forall2 carries (entry :: entries) payloads ->
  call (gpt_image_edit save response d image kind) =
  (edit_prefix ++
   Notify edit_storing ::
   stored save (image_edit_item d kind) 0 (filter truthy payloads) ++
   [Notify edit_completed],
   Returned (blob_names save 0 (filter truthy payloads))).
Proof.
  intros Herr Hdata Hshape. unfold gpt_image_edit.
  rewrite Herr. unfold getitem. rewrite Hdata.
  unfold notify. rewrite !bind_act, bind_pure. cbn [truthy negb].
  rewrite bind_act. unfold base64_images.
  rewrite (b64_payloads_carries _ _ _ Hshape), bind_pure.
  rewrite store_images_stored, bind_next, bind_act.
  reflexivity.
Qed.





Lemma length_append (s t : string) :
  String.length (s ++ t) = String.length s + String.length t.
Proof.
  induction s as [|c s IH]; simpl; [reflexivity | rewrite IH; reflexivity].
Qed.

Lemma append_cancel_r (t s1 s2 : string) :
  (s1 ++ t = s2 ++ t)%string -> s1 = s2.
Proof.
  revert s2. induction s1 as [|c s1 IH]; intros [|c' s2] H; simpl in H.
  - reflexivity.
  - apply (f_equal String.length) in H. simpl in H.
    rewrite length_append in H. lia.
  - apply (f_equal String.length) in H. simpl in H.
    rewrite length_append in H. lia.
  - injection H as -> H. f_equal. apply IH. exact H.
Qed.





(** C1. On the empty-result path both image tools return without any
    terminal-phase event: the last event emitted is the step in_progress
    event that announces the fetch. *)
Theorem empty_result_has_no_terminal_event :
  call (gpt_image_generation numbered no_images "a cat" 1) =
    (generation_prefix 1, Returned []) /\
  filter is_terminal_event
    (events (run (gpt_image_generation numbered no_images "a cat" 1))) = [] /\
  call (gpt_image_edit numbered no_images "a hat" "aGVsbG8=" "FILE") =
    (edit_prefix, Returned []) /\
  filter is_terminal_event
    (events (run (gpt_image_edit numbered no_images "a hat" "aGVsbG8="
                    "FILE"))) = [].
Proof. repeat split. Qed.

(** ** Identifiers and absorbed failures *)









(** ** Terminal events on the returning paths *)

(** The comprehension calls no collaborator: it yields a list or raises. *)
Lemma b64_payloads_quiet R entries :
  match @b64_payloads R entries with
  | ([], Next _) | ([], Raise _) => True
  | _ => False
  end.
Proof.
  induction entries as [|entry entries IH]; [exact I|].
  destruct entry as [| | | | |fields]; try exact I.
  cbn [b64_payloads]. unfold getitem.
  destruct (dict_lookup "b64_json" fields) as [v|]; [|exact I].
  rewrite bind_pure.
  destruct (b64_payloads entries) as [[|a t] [payloads| | |]];
    try contradiction; exact I.
Qed.

Lemma base64_images_quiet R data :
  match @base64_images R data with
  | ([], Next _) | ([], Raise _) => True
  | _ => False
  end.
Proof.
  destruct data; try exact I. apply b64_payloads_quiet.
Qed.

Lemma stored_not_terminal save announce images :
  (forall blob, is_terminal_event (announce blob) = false) ->
  forall k,
    filter is_terminal_event (events (stored save announce k images)) = [].
Proof.
  intros Hitem k. rewrite stored_events.
  induction (blob_names save k images) as [|blob l IH]; simpl;
    [reflexivity | rewrite Hitem; exact IH].
Qed.

(** X8. A returning invocation of the image-generation tool emitted exactly
    one terminal-phase event, unless it returned on the empty-result path. *)
Lemma generation_terminal_event save response d n images :
  value (gpt_image_generation save response d n) = Returned images ->
  length (filter is_terminal_event
            (events (run (gpt_image_generation save response d n)))) = 1 \/
  (exists data,
     contains "error" response = false /\
     dict_lookup "data" response = Some data /\ truthy data = false).
Proof.
  unfold value, run, gpt_image_generation, contains, getitem.
  destruct (dict_lookup "error" response) as [error|]; [left; reflexivity|].
  destruct (dict_lookup "data" response) as [data|]; [|discriminate].
  unfold notify. rewrite !bind_act, bind_pure.
  destruct (truthy data) eqn:Hdata; cbn [negb];
    [|intros _; right; exists data; auto].
  rewrite bind_act.
  pose proof (base64_images_quiet (list string) data) as Hquiet.
  destruct (base64_images data) as [[|a t] [payloads| | |]];
    try contradiction; try discriminate.
  change (@pair trace (outcome (list string) (list json)) [] (Next payloads))
    with (@pure (list string) _ payloads).
  rewrite bind_pure, store_images_stored, bind_next, bind_act.
  intros _. left. unfold return_. cbn [fst snd call events app].
  rewrite events_app. cbn [filter is_terminal_event has_status status
                             String.eqb Ascii.eqb Bool.eqb orb].
  rewrite filter_app, stored_not_terminal by reflexivity.
  reflexivity.
Qed.

(** X9. A returning invocation of the image-edit tool emitted exactly one
    terminal-phase event, unless it returned on the empty-result path. *)
Lemma edit_terminal_event save response d image kind images :
  value (gpt_image_edit save response d image kind) = Returned images ->
  length (filter is_terminal_event
            (events (run (gpt_image_edit save response d image kind)))) = 1 \/
  (exists data,
     contains "error" response = false /\
     dict_lookup "data" response = Some data /\ truthy data = false).
Proof.
  unfold value, run, gpt_image_edit, contains, getitem.
  destruct (dict_lookup "error" response) as [error|]; [left; reflexivity|].
  destruct (dict_lookup "data" response) as [data|]; [|discriminate].
  unfold notify. rewrite !bind_act, bind_pure.
  destruct (truthy data) eqn:Hdata; cbn [negb];
    [|intros _; right; exists data; auto].
  rewrite bind_act.
  pose proof (base64_images_quiet (list string) data) as Hquiet.
  destruct (base64_images data) as [[|a t] [payloads| | |]];
    try contradiction; try discriminate.
  change (@pair trace (outcome (list string) (list json)) [] (Next payloads))
    with (@pure (list string) _ payloads).
  rewrite bind_pure, store_images_stored, bind_next, bind_act.
  intros _. left. unfold return_. cbn [fst snd call events app].
  rewrite events_app. cbn [filter is_terminal_event has_status status
                             String.eqb Ascii.eqb Bool.eqb orb].
  rewrite filter_app, stored_not_terminal by reflexivity.
  reflexivity.
Qed.

Lemma poll_terminal_events p job fuel :
  forall i previous status_data,
    match snd (poll p job fuel i previous status_data) with
    | Return _ =>
        length (filter is_terminal_event
                  (events (fst (poll p job fuel i previous status_data)))) = 1
    | _ =>
        filter is_terminal_event
          (events (fst (poll p job fuel i previous status_data))) = []
    end.
Proof.
  induction fuel as [|fuel IH]; intros i previous status_data; cbn [poll];
    destruct (is_terminal previous); try reflexivity.
  rewrite !bind_act. cbn [fst snd events].
  destruct (status_code (job_status p i) =? 200)%Z; [|reflexivity].
  cbn [negb]. unfold getitem.
  destruct (dict_lookup "status" (body (job_status p i))) as [observed|];
    [|reflexivity].
  rewrite bind_pure.
  specialize (IH (S i) observed (body (job_status p i))).
  destruct (poll p job fuel (S i) observed (body (job_status p i)))
    as [t o].
  destruct (py_eq previous observed); cbn [negb];
    [rewrite bind_pure | unfold notify; rewrite bind_act];
    cbn [fst snd events filter is_terminal_event has_status status
           String.eqb Ascii.eqb Bool.eqb orb] in *; exact IH.
Qed.

(** A returning invocation of the video tool emitted exactly one
    terminal-phase event. *)
Lemma sora_terminal_event svb p fuel d s videos :
  value (sora_video_generation svb p fuel d s) = Returned videos ->
  length (filter is_terminal_event
            (events (run (sora_video_generation svb p fuel d s)))) = 1.
Proof.
  unfold value, run, sora_video_generation.
  rewrite !bind_act.
  destruct (status_code (job_creation p) =? 201)%Z; [|reflexivity].
  cbn [negb]. unfold getitem.
  destruct (dict_lookup "id" (body (job_creation p))) as [job|];
    [|discriminate].
  rewrite bind_pure. unfold notify. rewrite bind_act.
  pose proof (poll_terminal_events p job fuel 0 (JStr "started") []) as Hpoll.
  destruct (poll p job fuel 0 (JStr "started") [])
    as [t [[final final_data]| r | e |]]; cbn [fst snd] in Hpoll;
    try discriminate.
  - rewrite bind_next. cbn [fst snd].
    destruct (py_eq final (JStr "succeeded"));
      [destruct (truthy (dict_get final_data "generations" (JArr [])));
       [destruct (dict_get final_data "generations" (JArr []))
          as [| | | |[|[]]|]; unfold first_generation_id;
        rewrite ?bind_pure, ?bind_act;
        try destruct (status_code (video_content p) =? 200)%Z| ]| ];
      try discriminate; intros _; unfold return_;
      simpl; rewrite ?events_app, ?filter_app, ?Hpoll; reflexivity.
  - intros _. simpl. rewrite ?app_nil_r. exact Hpoll.
Qed.

(** ** The video tool on every path *)

(** Whatever the provider answers, the loop stores nothing, fetches no
    content and completes nothing; it returns only the empty list, after
    one step failed event. *)
Lemma poll_invariants p job fuel :
  forall i previous status_data,
    filter is_save (fst (poll p job fuel i previous status_data)) = [] /\
    filter is_content_fetch
      (fst (poll p job fuel i previous status_data)) = [] /\
    filter (has_status "run completed")
      (events (fst (poll p job fuel i previous status_data))) = [] /\
    filter (has_status "step completed")
      (events (fst (poll p job fuel i previous status_data))) = [] /\
    match snd (poll p job fuel i previous status_data) with
    | Return videos =>
        videos = [] /\
        length (filter (has_status "step failed")
                  (events (fst (poll p job fuel i previous status_data)))) = 1
    | _ =>
        filter (has_status "step failed")
          (events (fst (poll p job fuel i previous status_data))) = []
    end.
Proof.
  induction fuel as [|fuel IH]; intros i previous status_data; cbn [poll];
    destruct (is_terminal previous); try (repeat split; reflexivity).
  rewrite !bind_act. cbn [fst snd events].
  destruct (status_code (job_status p i) =? 200)%Z;
    [|repeat split; reflexivity].
  cbn [negb]. unfold getitem.
  destruct (dict_lookup "status" (body (job_status p i))) as [observed|];
    [|repeat split; reflexivity].
  rewrite bind_pure.
  specialize (IH (S i) observed (body (job_status p i))).
  destruct (poll p job fuel (S i) observed (body (job_status p i)))
    as [t o].
  destruct (py_eq previous observed); cbn [negb];
    [rewrite bind_pure | unfold notify; rewrite bind_act];
    cbn [fst snd events filter is_save is_content_fetch has_status status
           String.eqb Ascii.eqb Bool.eqb] in *; exact IH.
Qed.

Ltac sora_tail_cases final final_data p :=
  destruct (py_eq final (JStr "succeeded"));
    [destruct (truthy (dict_get final_data "generations" (JArr [])));
     [destruct (dict_get final_data "generations" (JArr []))
        as [| | | |[|[]]|]; unfold first_generation_id;
      rewrite ?bind_pure, ?bind_act;
      try destruct (status_code (video_content p) =? 200)%Z eqn:?| ]| ].

(** X1. A returning invocation of the video tool returns the empty list
    after exactly one step failed event and no run completed event, or the
    list holding the empty string after exactly one run completed event and
    no step failed event; it returns nothing else. *)
Theorem sora_returns_failure_or_placeholder svb p fuel d s videos
  (returned : value (sora_video_generation svb p fuel d s) = Returned videos) :
  let es := events (run (sora_video_generation svb p fuel d s)) in
  (videos = [] /\
   length (filter (has_status "step failed") es) = 1 /\
   filter (has_status "run completed") es = []) \/
  (videos = [EmptyString] /\
   filter (has_status "run completed") es = [sora_completed] /\
   filter (has_status "step failed") es = []).
Proof.
  cbv zeta. revert returned.
  unfold value, run, sora_video_generation.
  rewrite !bind_act.
  destruct (status_code (job_creation p) =? 201)%Z;
    [|intros [= <-]; left; repeat split].
  cbn [negb]. unfold getitem.
  destruct (dict_lookup "id" (body (job_creation p))) as [job|];
    [|discriminate].
  rewrite bind_pure. unfold notify. rewrite bind_act.
  destruct (poll_invariants p job fuel 0 (JStr "started") [])
    as (_ & _ & Hcompleted & _ & Hfailed).
  destruct (poll p job fuel 0 (JStr "started") [])
    as [t [[final final_data]| r | e |]]; cbn [fst snd] in *;
    try discriminate.
  - rewrite bind_next. cbn [fst snd].
    sora_tail_cases final final_data p;
      try discriminate; unfold return_; simpl;
      intros [= <-]; rewrite ?events_app, ?filter_app, ?Hcompleted, ?Hfailed;
      solve [left; repeat split | right; repeat split].
  - destruct Hfailed as [-> Hfailed]. intros [= <-]. left. simpl.
    rewrite Hcompleted. repeat split. exact Hfailed.
Qed.

Lemma sora_returns_failure_or_placeholder_witness :
  (([EmptyString] : list string) = [] /\
   length (filter (has_status "step failed")
             (events (run (sora_video_generation video_store scenario_C 2
                             "a cat" 5)))) = 1 /\
   filter (has_status "run completed")
     (events (run (sora_video_generation video_store scenario_C 2
                     "a cat" 5))) = []) \/
  (([EmptyString] : list string) = [EmptyString] /\
   filter (has_status "run completed")
     (events (run (sora_video_generation video_store scenario_C 2
                     "a cat" 5))) = [sora_completed] /\
   filter (has_status "step failed")
     (events (run (sora_video_generation video_store scenario_C 2
                     "a cat" 5))) = []).
Proof.
  exact (sora_returns_failure_or_placeholder video_store scenario_C 2 "a cat"
           5 [EmptyString] eq_refl).
Defined.

(** X2. Whatever the provider answers, the video tool stores nothing unless
    the content fetch was answered with code 200; when it stores, it stores
    the fetched content once, announces that one reference, fetched the
    content once, and returns. *)
Theorem sora_stores_only_fetched_content svb p fuel d s :
  let tool := sora_video_generation svb p fuel d s in
  let video := payload (video_content p) in
  (filter is_save (run tool) = [] /\
   filter (has_status "step completed") (events (run tool)) = []) \/
  (status_code (video_content p) = 200%Z /\
   filter is_save (run tool) = [SaveVideo video (svb video)] /\
   filter (has_status "step completed") (events (run tool)) =
     [sora_item d s (svb video)] /\
   length (filter is_content_fetch (run tool)) = 1 /\
   exists videos, value tool = Returned videos).
Proof.
  cbv zeta. unfold value, run, sora_video_generation.
  rewrite !bind_act.
  destruct (status_code (job_creation p) =? 201)%Z;
    [|left; split; reflexivity].
  cbn [negb]. unfold getitem.
  destruct (dict_lookup "id" (body (job_creation p))) as [job|];
    [|left; split; reflexivity].
  rewrite bind_pure. unfold notify. rewrite bind_act.
  destruct (poll_invariants p job fuel 0 (JStr "started") [])
    as (Hsave & Hfetch & _ & Hitem & _).
  destruct (poll p job fuel 0 (JStr "started") [])
    as [t [[final final_data]| r | e |]]; cbn [fst snd] in *;
    try (left; simpl; rewrite Hsave, Hitem; split; reflexivity).
  rewrite bind_next. cbn [fst snd].
  sora_tail_cases final final_data p;
    unfold return_, raise; simpl;
    rewrite ?events_app, ?filter_app, ?Hsave, ?Hitem, ?Hfetch;
    try (left; split; reflexivity).
  right. split; [apply Z.eqb_eq; assumption|].
  repeat split. eexists; reflexivity.
Qed.

Lemma poll_never_ends p job (endless : never_ends p) fuel :
  forall i previous status_data,
    is_terminal previous = false ->
    snd (poll p job fuel i previous status_data) = Pending.
Proof.
  induction fuel as [|fuel IH]; intros i previous status_data Hrun;
    cbn [poll]; rewrite Hrun; [reflexivity|].
  destruct (endless i) as (Hcode & observed & Hstatus & Hgo).
  rewrite !bind_act. cbn [snd]. rewrite Hcode. cbn [Z.eqb Pos.eqb negb].
  unfold getitem. rewrite Hstatus, bind_pure.
  specialize (IH (S i) observed (body (job_status p i)) Hgo).
  destruct (poll p job fuel (S i) observed (body (job_status p i)))
    as [t o]. cbn [snd] in IH. subst o.
  destruct (py_eq previous observed); cbn [negb];
    [rewrite bind_pure | unfold notify; rewrite bind_act]; reflexivity.
Qed.

(** X3. The video tool has no timeout: when the job is created and every
    status fetch is answered with code 200 and a status that is none of
    succeeded, failed and cancelled, the tool is still running after any
    number of rounds of the loop; it never returns and never raises. *)
Theorem sora_never_returns_on_endless_job svb p d s job
  (created_ok : job_created p job)
  (endless : never_ends p) :
  forall fuel, value (sora_video_generation svb p fuel d s) = Running.
Proof.
  intros fuel. destruct created_ok as [Hcode Hid].
  sora_created Hcode Hid.
  pose proof (poll_never_ends p job endless fuel 0 (JStr "started") []
                eq_refl) as Hpoll.
  destruct (poll p job fuel 0 (JStr "started") []) as [t o].
  cbn [snd] in Hpoll. subst o. reflexivity.
Qed.

Lemma sora_never_returns_on_endless_job_witness :
  value (sora_video_generation video_store stuck 1000 "a cat" 5) = Running.
Proof.
  apply (sora_never_returns_on_endless_job video_store stuck "a cat" 5
           (JStr "job-1")).
  - split; reflexivity.
  - intros i. split; [reflexivity|].
    exists (JStr "queued"). split; reflexivity.
Defined.

Lemma changes_no_repeat previous names :
  no_repeat (JStr previous) (changes (JStr previous) (map JStr names)).
Proof.
  revert previous.
  induction names as [|name names IH]; intros previous; [exact I|].
  cbn [map changes py_eq].
  destruct (String.eqb previous name) eqn:E.
  - apply String.eqb_eq in E. subst name. apply IH.
  - cbn [no_repeat]. split; [|apply IH].
    apply String.eqb_neq in E. congruence.
Qed.

(** X4. When the statuses the provider reports are strings, no two
    consecutive status-change events of a run report the same status, and
    the first one does not report "started". *)
Theorem sora_reports_no_status_twice_in_a_row svb p fuel d s job names
  (created_ok : job_created p job)
  (observed : observes p 0 (map JStr names))
  (going : keeps_polling (JStr "started") (map JStr names) = true)
  (ended : is_terminal (last_status (JStr "started") (map JStr names))
           = true) :
  exists reported,
    filter is_status_change
      (events (run (sora_video_generation svb p (length names + fuel) d s)))
    = map status_change reported /\
    no_repeat (JStr "started") reported.
Proof.
  destruct created_ok as [Hcode Hid].
  exists (changes (JStr "started") (map JStr names)). split.
  - rewrite (sora_status_changes svb p _ d s job Hcode Hid).
    rewrite <- (length_map JStr names).
    rewrite (poll_exits p job (map JStr names) fuel observed going ended).
    cbn [fst]. rewrite polled_events. apply status_changes_all.
  - apply changes_no_repeat.
Qed.

Lemma sora_reports_no_status_twice_in_a_row_witness :
  exists reported,
    filter is_status_change
      (events (run (sora_video_generation video_store scenario_P2 5
                      "a cat" 5)))
    = map status_change reported /\
    no_repeat (JStr "started") reported.
Proof.
  apply (sora_reports_no_status_twice_in_a_row video_store scenario_P2 0
           "a cat" 5 (JStr "job-1")
           ["queued"; "queued"; "running"; "running"; "succeeded"]).
  - split; reflexivity.
  - simpl. repeat split; reflexivity.
  - reflexivity.
  - reflexivity.
Defined.

(** ** The image tools on every path *)

Lemma stored_kept save announce images :
  (forall blob, has_status "step completed" (announce blob) = true) ->
  forall k,
    filter is_save_or_item (stored save announce k images) =
    stored save announce k images.
Proof.
  intros Hitem.
  induction images as [|b64 rest IH]; intros k; [reflexivity|].
  cbn [stored filter is_save_or_item]. rewrite Hitem, IH. reflexivity.
Qed.

Ltac image_paths response data :=
  unfold value, run, contains, getitem;
  destruct (dict_lookup "error" response) as [?error|];
  [|destruct (dict_lookup "data" response) as [data|];
    [unfold notify; rewrite !bind_act, bind_pure;
     destruct (truthy data) eqn:?Hdata; cbn [negb];
     [rewrite bind_act;
      pose proof (base64_images_quiet (list string) data) as Hquiet;
      destruct (base64_images data) as [[|?a ?t] [?payloads| | |]];
      try contradiction; clear Hquiet| ]| ]].



(** X6. On every returning path of the image-generation tool, each image is
    stored and announced before the next one is stored, and the returned
    list holds the references of the stored images in that order. *)
Theorem generation_streams_what_it_returns save response d n images
  (returned :
     value (gpt_image_generation save response d n) = Returned images) :
  exists artifacts,
    filter is_save_or_item (run (gpt_image_generation save response d n)) =
      stored save (image_generation_item d) 0 artifacts /\
    images = blob_names save 0 artifacts.
Proof.
  revert returned. unfold gpt_image_generation.
  image_paths response data; try discriminate.
  - intros [= <-]. exists []. split; reflexivity.
  - change (@pair trace (outcome (list string) (list json)) []
              (Next payloads)) with (@pure (list string) _ payloads).
    rewrite bind_pure, store_images_stored, bind_next, bind_act.
    unfold return_. cbn [fst snd call app]. intros [= <-].
    exists payloads. split; [|reflexivity].
    cbn [filter is_save_or_item has_status status String.eqb Ascii.eqb
           Bool.eqb].
    rewrite filter_app, stored_kept by reflexivity.
    cbn [filter is_save_or_item has_status status String.eqb Ascii.eqb
           Bool.eqb]. apply app_nil_r.
  - intros [= <-]. exists []. split; reflexivity.
Qed.

Lemma generation_streams_what_it_returns_witness :
  exists artifacts,
    filter is_save_or_item
      (run (gpt_image_generation numbered two_images "a cat" 2)) =
      stored numbered (image_generation_item "a cat") 0 artifacts /\
    ["blob-1.png"; "blob-2.png"] = blob_names numbered 0 artifacts.
Proof.
  exact (generation_streams_what_it_returns numbered two_images "a cat" 2
           ["blob-1.png"; "blob-2.png"] eq_refl).
Defined.

(** X7. On every returning path of the image-edit tool, each image is stored
    and announced, with the kind it was called with, before the next one is
    stored, and the returned list holds the references of the stored images
    in that order. *)
Theorem edit_streams_what_it_returns save response d image kind images
  (returned :
     value (gpt_image_edit save response d image kind) = Returned images) :
  exists artifacts,
    filter is_save_or_item (run (gpt_image_edit save response d image kind))
      = stored save (image_edit_item d kind) 0 artifacts /\
    images = blob_names save 0 artifacts.
Proof.
  revert returned. unfold gpt_image_edit.
  image_paths response data; try discriminate.
  - intros [= <-]. exists []. split; reflexivity.
  - change (@pair trace (outcome (list string) (list json)) []
              (Next payloads)) with (@pure (list string) _ payloads).
    rewrite bind_pure, store_images_stored, bind_next, bind_act.
    unfold return_. cbn [fst snd call app]. intros [= <-].
    exists payloads. split; [|reflexivity].
    cbn [filter is_save_or_item has_status status String.eqb Ascii.eqb
           Bool.eqb].
    rewrite filter_app, stored_kept by reflexivity.
    cbn [filter is_save_or_item has_status status String.eqb Ascii.eqb
           Bool.eqb]. apply app_nil_r.
  - intros [= <-]. exists []. split; reflexivity.
Qed.

Lemma edit_streams_what_it_returns_witness :
  exists artifacts,
    filter is_save_or_item
      (run (gpt_image_edit numbered two_images "a hat" "aGVsbG8=" "FILE")) =
      stored numbered (image_edit_item "a hat" "FILE") 0 artifacts /\
    ["blob-1.png"; "blob-2.png"] = blob_names numbered 0 artifacts.
Proof.
  exact (edit_streams_what_it_returns numbered two_images "a hat" "aGVsbG8="
           "FILE" ["blob-1.png"; "blob-2.png"] eq_refl).
Defined.

Lemma generation_terminal_event_witness :
  length (filter is_terminal_event
            (events (run (gpt_image_generation numbered two_images "a cat"
                            2)))) = 1 \/
  (exists data,
     contains "error" two_images = false /\
     dict_lookup "data" two_images = Some data /\ truthy data = false).
Proof.
  exact (generation_terminal_event numbered two_images "a cat" 2
           ["blob-1.png"; "blob-2.png"] eq_refl).
Defined.

Lemma edit_terminal_event_witness :
  length (filter is_terminal_event
            (events (run (gpt_image_edit numbered provider_error "a hat"
                            "aGVsbG8=" "FILE")))) = 1 \/
  (exists data,
     contains "error" provider_error = false /\
     dict_lookup "data" provider_error = Some data /\ truthy data = false).
Proof.
  exact (edit_terminal_event numbered provider_error "a hat" "aGVsbG8="
           "FILE" [] eq_refl).
Defined.

(** ** The image endpoint *)

(** X10. When the provider answers 200 with a result set whose first entry
    carries a payload, [create_image] stores that payload in the folder
    tools and returns the base URL followed by its reference; the entries
    after the first one are neither stored nor returned. *)
Theorem create_image_keeps_first_entry save base_url image fetched response
  fields more image_base64
  (reference_ok :
     forall address,
       image = Some address -> String.prefix "http" address = true ->
       status_code fetched = 200%Z)
  (answered : status_code response = 200%Z)
  (results : dict_lookup "data" (body response) =
             Some (JArr (JObj fields :: more)))
  (carried : dict_lookup "b64_json" fields = Some image_base64) :
  let endpoint := create_image save base_url image fetched response in
  filter is_save (run endpoint) =
    [SaveImage image_base64 (save image_base64 "tools")] /\
  value endpoint =
    Returned (base_url ++ "/" ++ save image_base64 "tools")%string.
Proof.
  cbv zeta. unfold run, value, create_image, contains, getitem.
  assert (Hbody : truthy (JObj (body response)) = true).
  { destruct (body response); [discriminate | reflexivity]. }
  rewrite answered, results, Hbody.
  assert (Hfetched :
    match image with
    | Some address =>
        if String.prefix "http" address
        then (status_code fetched =? 200)%Z = true
        else True
    | None => True
    end).
  { destruct image as [address|]; [|exact I].
    destruct (String.prefix "http" address) eqn:Hhttp; [|exact I].
    rewrite (reference_ok address eq_refl Hhttp). reflexivity. }
  destruct image as [address|];
    [destruct (String.prefix "http" address); [rewrite Hfetched|]|];
    simpl; rewrite carried; split; reflexivity.
Qed.

Lemma create_image_keeps_first_entry_witness :
  value (create_image single_store "http://localhost:8000" None server_error
           two_results) =
  Returned "http://localhost:8000/tools/image.png".
Proof.
  refine (proj2 (create_image_keeps_first_entry single_store
                   "http://localhost:8000" None server_error two_results
                   [("b64_json", JStr "aGVsbG8=")]
                   [JObj [("b64_json", JStr "d29ybGQ=")]]
                   (JStr "aGVsbG8=") _ eq_refl eq_refl eq_refl)).
  intros address H. discriminate H.
Defined.

(** X11. [create_image] returns only after it has stored exactly one image:
    whenever it returns, one storage call was made, into the folder tools,
    the returned URL is the base URL followed by the reference of that
    image, and the provider answered 200. *)
Theorem create_image_returns_what_it_stored save base_url image fetched
  response url
  (returned :
     value (create_image save base_url image fetched response)
     = Returned url) :
  status_code response = 200%Z /\
  exists image_base64,
    filter is_save (run (create_image save base_url image fetched response))
      = [SaveImage image_base64 (save image_base64 "tools")] /\
    url = (base_url ++ "/" ++ save image_base64 "tools")%string.
Proof.
  revert returned. unfold run, value, create_image, contains, getitem.
  destruct (status_code response =? 200)%Z eqn:Hcode;
    [apply Z.eqb_eq in Hcode|];
    destruct (truthy (JObj (body response)));
    destruct (dict_lookup "data" (body response)) as [data|];
    try destruct data as [| | |[|c s]|[|[| | | | |fields] more]|[|f fs]];
    (destruct image as [address|];
     [destruct (String.prefix "http" address);
      [destruct (status_code fetched =? 200)%Z|]|]);
    simpl; try discriminate;
    (destruct (dict_lookup "b64_json" fields) as [image_base64|];
     simpl; [|discriminate]);
    intros [= <-]; (split; [exact Hcode|]);
    exists image_base64; split; reflexivity.
Qed.

Lemma create_image_returns_what_it_stored_witness :
  status_code two_results = 200%Z /\
  exists image_base64,
    filter is_save
      (run (create_image single_store "http://localhost:8000" None
              server_error two_results))
      = [SaveImage image_base64 (single_store image_base64 "tools")] /\
    "http://localhost:8000/tools/image.png" =
      ("http://localhost:8000" ++ "/" ++
       single_store image_base64 "tools")%string.
Proof.
  exact (create_image_returns_what_it_stored single_store
           "http://localhost:8000" None server_error two_results
           "http://localhost:8000/tools/image.png" eq_refl).
Defined.

(** X12. When the provider answers 200 but the body has no data member, or
    an empty result list, [create_image] stores nothing and raises the
    exception "No image data returned from the API.". *)
Theorem create_image_without_data_raises save base_url image fetched response
  (reference_ok :
     forall address,
       image = Some address -> String.prefix "http" address = true ->
       status_code fetched = 200%Z)
  (answered : status_code response = 200%Z)
  (no_data : dict_lookup "data" (body response) = None \/
             dict_lookup "data" (body response) = Some (JArr [])) :
  let endpoint := create_image save base_url image fetched response in
  filter is_save (run endpoint) = [] /\
  value endpoint = Raised (Exception "No image data returned from the API.").
Proof.
  cbv zeta. unfold run, value, create_image, contains, getitem.
  rewrite answered.
  assert (Hfetched :
    match image with
    | Some address =>
        if String.prefix "http" address
        then (status_code fetched =? 200)%Z = true
        else True
    | None => True
    end).
  { destruct image as [address|]; [|exact I].
    destruct (String.prefix "http" address) eqn:Hhttp; [|exact I].
    rewrite (reference_ok address eq_refl Hhttp). reflexivity. }
  destruct no_data as [Hdata | Hdata]; rewrite Hdata;
    destruct (truthy (JObj (body response)));
    (destruct image as [address|];
     [destruct (String.prefix "http" address); [rewrite Hfetched|]|]);
    split; reflexivity.
Qed.

Lemma create_image_without_data_raises_witness :
  value (create_image single_store "http://localhost:8000" None server_error
           {| status_code := 200; body := no_images;
              payload := EmptyString |}) =
  Raised (Exception "No image data returned from the API.").
Proof.
  refine (proj2 (create_image_without_data_raises single_store
                   "http://localhost:8000" None server_error
                   {| status_code := 200; body := no_images;
                      payload := EmptyString |} _ eq_refl
                   (or_intror eq_refl))).
  intros address H. discriminate H.
Defined.

(** X13. When the reference image is a URL whose fetch is answered with a
    code other than 200, [create_image] raises an exception that names the
    URL; the image provider is never called and nothing is stored. *)
Theorem create_image_reference_fetch_fails save base_url address fetched
  response
  (is_url : String.prefix "http" address = true)
  (refused : status_code fetched <> 200%Z) :
  call (create_image save base_url (Some address) fetched response) =
  ([Get (External address)],
   Raised (Exception ("Error fetching image from URL: " ++ address)%string)).
Proof.
  apply Z.eqb_neq in refused.
  unfold create_image. rewrite is_url, refused. reflexivity.
Qed.

Lemma create_image_reference_fetch_fails_witness :
  call (create_image single_store "http://localhost:8000"
          (Some "https://example.com/ref.png") server_error
          two_results) =
  ([Get (External "https://example.com/ref.png")],
   Raised (Exception
             "Error fetching image from URL: https://example.com/ref.png")).
Proof.
  apply (create_image_reference_fetch_fails single_store
           "http://localhost:8000" "https://example.com/ref.png"
           server_error two_results).
  - reflexivity.
  - simpl. lia.
Defined.

(** X14. A reference image that is not a URL starting with http is never
    fetched: [create_image] behaves as if no reference image were given. *)
Theorem create_image_ignores_other_references save base_url address fetched
  fetched' response
  (not_url : String.prefix "http" address = false) :
  call (create_image save base_url (Some address) fetched response) =
  call (create_image save base_url None fetched' response).
Proof.
  unfold create_image. rewrite not_url. reflexivity.
Qed.

Lemma create_image_ignores_other_references_witness :
  call (create_image single_store "http://localhost:8000" (Some "aGVsbG8=")
          server_error two_results) =
  call (create_image single_store "http://localhost:8000" None two_results
          two_results).
Proof.
  apply create_image_ignores_other_references. reflexivity.
Defined.

(** ** The capture tool *)

Lemma prefix_append (p s : string) : String.prefix p (p ++ s) = true.
Proof.
  induction p as [|c p IH]; simpl; [destruct s; reflexivity|].
  destruct (ascii_dec c c) as [_|Hne]; [exact IH | contradiction].
Qed.

Lemma remove_from_skip old t s :
  remove_from old (String.length t) (t ++ s) = remove_from old 0 s.
Proof.
  induction t as [|c t IH]; simpl; [|exact IH].
  destruct s; reflexivity.
Qed.

(** Removing the occurrences of a text from that text followed by a rest
    removes those of the rest. *)
Lemma str_remove_prefix c old s :
  str_remove (String c old) (String c old ++ s) =
  str_remove (String c old) s.
Proof.
  unfold str_remove.
  change (String c old ++ s)%string with (String c (old ++ s)).
  cbn [remove_from].
  change (String c (old ++ s)) with (String c old ++ s)%string.
  rewrite prefix_append. cbn [String.length Nat.sub].
  rewrite Nat.sub_0_r. apply remove_from_skip.
Qed.

Lemma prefix_occurs c old s :
  occurs c old = true -> String.prefix old s = true -> occurs c s = true.
Proof.
  revert s. induction old as [|a old IH]; intros s Hc Hp; [discriminate|].
  destruct s as [|b s]; [discriminate|].
  simpl in Hp. destruct (ascii_dec a b) as [<-|]; [|discriminate].
  simpl in Hc. simpl. apply orb_true_iff in Hc. apply orb_true_iff.
  destruct Hc as [Hc|Hc]; [left; exact Hc | right; apply IH; assumption].
Qed.

(** A text that lacks a character of [old] holds no occurrence of [old]. *)
Lemma str_remove_absent c old s :
  occurs c old = true -> occurs c s = false -> str_remove old s = s.
Proof.
  intros Hold. unfold str_remove.
  induction s as [|b s IH]; intros Hs; [reflexivity|].
  cbn [remove_from].
  destruct (String.prefix old (String b s)) eqn:Hp.
  - rewrite (prefix_occurs c old _ Hold Hp) in Hs. discriminate.
  - simpl in Hs. apply orb_false_iff in Hs. destruct Hs as [_ Hs].
    rewrite (IH Hs). reflexivity.
Qed.

Lemma str_remove_jpeg_prefix b64 :
  occurs ":" b64 = false ->
  str_remove jpeg_prefix (jpeg_prefix ++ b64) = b64.
Proof.
  intros Hb64. unfold jpeg_prefix. rewrite str_remove_prefix.
  apply (str_remove_absent ":"); [reflexivity | exact Hb64].
Qed.

(** X15. The data-URL prefix of the captured image is optional: for an
    image that does not start with the prefix, the capture tool does the
    same with and without the prefix in front of it. *)
Theorem capture_prefix_is_optional save describe image kind
  (bare : String.prefix jpeg_prefix image = false) :
  gpt_image_capture save describe (jpeg_prefix ++ image) kind =
  gpt_image_capture save describe image kind.
Proof.
  unfold gpt_image_capture. rewrite prefix_append, bare. reflexivity.
Qed.

Lemma capture_prefix_is_optional_witness :
  gpt_image_capture numbered describe_any (jpeg_prefix ++ "aGVsbG8=")
    "CAMERA" =
  gpt_image_capture numbered describe_any "aGVsbG8=" "CAMERA".
Proof.
  apply capture_prefix_is_optional. reflexivity.
Defined.

(** X16. For base64 text, which holds no colon, given with or without the
    data-URL prefix, the capture tool describes the prefixed image, stores
    the bare base64 text once, announces its reference with that
    description and the kind, and returns that one reference. *)
Theorem capture_stores_bare_base64 save describe b64 kind image
  (base64 : occurs ":" b64 = false)
  (form : image = b64 \/ image = (jpeg_prefix ++ b64)%string) :
  let tool := gpt_image_capture save describe image kind in
  let blob := save 0 (JStr b64) in
  filter is_save_or_item (run tool) =
    [SaveImage (JStr b64) blob;
     Notify (image_capture_item (describe (jpeg_prefix ++ b64)%string) kind
               blob)] /\
  filter is_terminal_event (events (run tool)) =
    [{| id := "image_capture"; status := "run completed";
        information := Some (text "Image capture complete");
        content := None; output := false |}] /\
  value tool = Returned [blob].
Proof.
  cbv zeta.
  assert (Hbare : String.prefix jpeg_prefix b64 = false).
  { destruct (String.prefix jpeg_prefix b64) eqn:Hp; [|reflexivity].
    rewrite (prefix_occurs ":" jpeg_prefix b64 eq_refl Hp) in base64.
    discriminate. }
  assert (Hsame : gpt_image_capture save describe image kind =
                  gpt_image_capture save describe b64 kind).
  { destruct form as [-> | ->]; [reflexivity|].
    unfold gpt_image_capture. rewrite prefix_append, Hbare. reflexivity. }
  rewrite Hsame. unfold run, value, gpt_image_capture.
  rewrite Hbare. cbn [negb].
  rewrite !(str_remove_jpeg_prefix b64 base64).
  repeat split.
Qed.

Lemma capture_stores_bare_base64_witness :
  value (gpt_image_capture numbered describe_any
           "data:image/jpeg;base64,aGVsbG8=" "CAMERA") =
  Returned ["blob-1.png"].
Proof.
  refine (proj2 (proj2 (capture_stores_bare_base64 numbered describe_any
                          "aGVsbG8=" "CAMERA"
                          "data:image/jpeg;base64,aGVsbG8=" eq_refl
                          (or_intror eq_refl)))).
Defined.

(** ** The delegating tools *)

Lemma append_cancel_l (p s1 s2 : string) :
  (p ++ s1 = p ++ s2)%string -> s1 = s2.
Proof.
  induction p as [|c p IH]; simpl; intros H; [exact H|].
  injection H as H. apply IH. exact H.
Qed.

(** X17. The additional instructions the delegating tools hand to the
    remote agent determine the image URL they were called with: two calls of
    [publish_linkedin_post], or of [zava_custom_agent], that give the same
    instructions were given the same image URL; and [zava_custom_agent]
    gives empty instructions exactly when the image URL is empty. *)
Theorem instructions_determine_image_url :
  (forall content content' image_url image_url',
     additional_instructions (publish_linkedin_post content image_url) =
     additional_instructions (publish_linkedin_post content' image_url') ->
     image_url = image_url') /\
  (forall description description' image_url image_url',
     additional_instructions (zava_custom_agent description image_url) =
     additional_instructions (zava_custom_agent description' image_url') ->
     image_url = image_url') /\
  (forall description image_url,
     additional_instructions (zava_custom_agent description image_url) =
       EmptyString <-> image_url = EmptyString).
Proof.
  split; [|split].
  - intros content content' u u' H.
    unfold publish_linkedin_post in H. cbn [additional_instructions] in H.
    apply append_cancel_l in H. apply append_cancel_l in H.
    apply append_cancel_r in H. exact H.
  - intros description description' u u' H.
    unfold zava_custom_agent in H. cbn [additional_instructions] in H.
    destruct u as [|c u], u' as [|c' u']; cbn [String.length Nat.ltb Nat.leb]
      in H; try reflexivity; try discriminate.
    apply append_cancel_l in H. apply append_cancel_l in H.
    apply append_cancel_r in H. exact H.
  - intros description u. unfold zava_custom_agent.
    cbn [additional_instructions].
    destruct u as [|c u]; cbn [String.length Nat.ltb Nat.leb]; split;
      intros H; try reflexivity; discriminate.
Qed.

Lemma instructions_determine_image_url_witness :
  additional_instructions
    (zava_custom_agent "a shirt with a logo" EmptyString) = EmptyString.
Proof.
  apply (proj2 (proj2 instructions_determine_image_url)). reflexivity.
Defined.

(** ** Edge cases of the video tool *)

(** X18. A status ends the polling loop exactly when it is one of the
    strings succeeded, failed and cancelled: every other JSON value, a
    differently spelled string included, keeps the loop fetching. *)
Theorem only_three_strings_end_the_loop observed :
  is_terminal observed = true <->
  observed = JStr "succeeded" \/ observed = JStr "failed" \/
  observed = JStr "cancelled".
Proof.
  unfold is_terminal. split.
  - destruct observed as [| | |name| |]; try discriminate.
    cbn [py_eq]. intros H.
    apply orb_true_iff in H. destruct H as [H|H];
      [apply orb_true_iff in H; destruct H as [H|H]|];
      apply String.eqb_eq in H; subst name; auto.
  - intros [-> | [-> | ->]]; reflexivity.
Qed.

Lemma only_three_strings_end_the_loop_witness :
  is_terminal (JStr "cancelled") = true.
Proof.
  apply (proj2 (only_three_strings_end_the_loop (JStr "cancelled"))).
  right. right. reflexivity.
Defined.

(** X19. A job that succeeds without generations (the member is missing,
    or empty) makes the video tool fetch no content and store nothing: it
    emits run completed and returns the list holding the empty string. *)
Theorem sora_succeeds_without_generations svb p fuel d s job statuses
  (created_ok : job_created p job)
  (observed : observes p 0 statuses)
  (going : keeps_polling (JStr "started") statuses = true)
  (succeeded : last_status (JStr "started") statuses = JStr "succeeded")
  (none : truthy (dict_get (last_data p 0 statuses []) "generations"
                    (JArr [])) = false) :
  call (sora_video_generation svb p (length statuses + fuel) d s) =
  (sora_prefix job ++ polled job (JStr "started") statuses ++
     [Notify sora_completed],
   Returned [EmptyString]).
Proof.
  destruct created_ok as [Hcode Hid]. sora_created Hcode Hid.
  assert (Hend : is_terminal (last_status (JStr "started") statuses) = true)
    by (rewrite succeeded; reflexivity).
  rewrite (poll_exits p job statuses fuel observed going Hend).
  rewrite bind_next. cbn [fst snd]. rewrite succeeded, none.
  cbn [py_eq String.eqb Ascii.eqb Bool.eqb].
  rewrite bind_pure, bind_act. reflexivity.
Qed.

Lemma sora_succeeds_without_generations_witness :
  value (sora_video_generation video_store
           {| job_creation := created "job-1";
              job_status := script [job_in "succeeded" []];
              video_content := video_ok |} 1 "a cat" 5) =
  Returned [EmptyString].
Proof.
  exact (f_equal snd
           (sora_succeeds_without_generations video_store
              {| job_creation := created "job-1";
                 job_status := script [job_in "succeeded" []];
                 video_content := video_ok |} 0 "a cat" 5 (JStr "job-1")
              [JStr "succeeded"] (conj eq_refl eq_refl)
              (conj eq_refl (conj eq_refl I)) eq_refl eq_refl eq_refl)).
Defined.

(** X20. A status answer with code 200 whose body has no status member is
    not caught: the video tool raises KeyError for status right after that
    fetch, having emitted no step failed and no run completed event. *)
Theorem sora_status_member_missing svb p fuel d s job statuses
  (created_ok : job_created p job)
  (observed : observes p 0 statuses)
  (going : keeps_polling (JStr "started") statuses = true)
  (running : is_terminal (last_status (JStr "started") statuses) = false)
  (answered : status_code (job_status p (length statuses)) = 200%Z)
  (missing :
     dict_lookup "status" (body (job_status p (length statuses))) = None) :
  let tool := sora_video_generation svb p (length statuses + S fuel) d s in
  run tool =
    sora_prefix job ++ polled job (JStr "started") statuses ++
    [Sleep 5; Get (VideoJob job)] /\
  filter is_terminal_event (events (run tool)) = [] /\
  value tool = Raised (KeyError (JStr "status")).
Proof.
  cbv zeta. destruct created_ok as [Hcode Hid].
  assert (Hcall :
    call (sora_video_generation svb p (length statuses + S fuel) d s) =
    (sora_prefix job ++ polled job (JStr "started") statuses ++
       [Sleep 5; Get (VideoJob job)],
     Raised (KeyError (JStr "status")))).
  { sora_created Hcode Hid.
    rewrite (poll_observes p job statuses (S fuel) 0 _ _ observed going).
    cbn [poll]. rewrite running. rewrite !bind_act.
    rewrite Nat.add_0_r. rewrite answered. cbn [Z.eqb Pos.eqb negb].
    unfold getitem. rewrite missing. reflexivity. }
  unfold run, value. rewrite Hcall. cbn [fst snd].
  split; [reflexivity|]. split; [|reflexivity].
  rewrite !events_app, !filter_app.
  rewrite polled_events_none by reflexivity. reflexivity.
Qed.

Lemma sora_status_member_missing_witness :
  value (sora_video_generation video_store
           {| job_creation := created "job-1";
              job_status :=
                script [job_in "queued" [];
                        {| status_code := 200; body := [];
                           payload := EmptyString |}];
              video_content := video_ok |} 2 "a cat" 5) =
  Raised (KeyError (JStr "status")).
Proof.
  refine (proj2 (proj2
            (sora_status_member_missing video_store
               {| job_creation := created "job-1";
                  job_status :=
                    script [job_in "queued" [];
                            {| status_code := 200; body := [];
                               payload := EmptyString |}];
                  video_content := video_ok |} 0 "a cat" 5 (JStr "job-1")
               [JStr "queued"] (conj eq_refl eq_refl)
               (conj eq_refl (conj eq_refl I)) eq_refl eq_refl eq_refl
               eq_refl))).
Defined.
